(** * RVAE: the recurrent variational auto-encoder of [model/rvae.py]

    A shallow embedding of [RVAE.forward], [RVAE.trainer] and [RVAE.sample].

    Conventions of the embedding:
    - float tensors are nested lists of real numbers (exact arithmetic:
      rounding and overflow of the tensor backend are outside the model);
      long tensors are nested lists of integers; the KL formula of line 79
      is given a second time in binary32 arithmetic, in the module [F32], to
      show where rounding separates the program from the real formula;
    - Python exceptions are the [Raise] results of a small state-and-error
      monad; the state is the pseudo-random generator together with a log
      of the calls made to the collaborators (embedding, encoder, decoder,
      batch loader, optimizer);
    - the collaborators, which live in other modules of the repository, are
      the fields of the records [RVAE] and [BatchLoader]. *)

From Stdlib Require Import String.
From Stdlib Require Import Reals List ZArith Lia Lra Bool.
From Stdlib Require SpecFloat.
Import ListNotations.

Open Scope R_scope.

(** ** Tensors *)

Abbreviation Tensor1 := (list R).
Abbreviation Tensor2 := (list (list R)).
Abbreviation Tensor3 := (list (list (list R))).

Abbreviation LongTensor2 := (list (list Z)).
Abbreviation LongTensor3 := (list (list (list Z))).

Module Torch.

(** Pairing of two sequences position by position.  The tensor operations
    below are only applied to operands of one shape; on operands of
    different lengths the pairing stops at the shorter one. *)
Fixpoint zip_with {A B C : Type} (f : A -> B -> C)
         (xs : list A) (ys : list B) : list C :=
  match xs, ys with
  | x :: xs', y :: ys' => f x y :: zip_with f xs' ys'
  | _, _ => []
  end.

Definition pointwise (f : R -> R) (x : Tensor2) : Tensor2 :=
  map (map f) x.

Definition pointwise2 (f : R -> R -> R) (x y : Tensor2) : Tensor2 :=
  zip_with (zip_with f) x y.

(** [x + y], [x - y], [x * y] on tensors. *)
Definition add : Tensor2 -> Tensor2 -> Tensor2 := pointwise2 Rplus.
Definition sub : Tensor2 -> Tensor2 -> Tensor2 := pointwise2 Rminus.
Definition mul : Tensor2 -> Tensor2 -> Tensor2 := pointwise2 Rmult.

(** [c * x] and [x + c] for a Python number [c]. *)
Definition scale (c : R) : Tensor2 -> Tensor2 := pointwise (Rmult c).
Definition add_scalar (x : Tensor2) (c : R) : Tensor2 :=
  pointwise (fun v => v + c) x.

(** [t.pow(x, n)] and [t.exp(x)]. *)
Definition pow (x : Tensor2) (n : nat) : Tensor2 :=
  pointwise (fun v => v ^ n) x.
Definition exp : Tensor2 -> Tensor2 := pointwise Rtrigo_def.exp.

(** [x.sum()] of a vector, [t.sum(x, 1)] of a matrix, and [c * x] of a
    vector. *)
Definition sum (x : Tensor1) : R := fold_right Rplus 0 x.
Definition sum_dim1 (x : Tensor2) : Tensor1 := map sum x.
Definition scale1 (c : R) (x : Tensor1) : Tensor1 := map (Rmult c) x.

(** [x.size() == [b, l]]. *)
Definition has_size {A : Type} (x : list (list A)) (b l : nat) : bool :=
  Nat.eqb (length x) b && forallb (fun row => Nat.eqb (length row) l) x.

Definition entry (x : Tensor2) (i j : nat) : R := nth j (nth i x []) 0.

(** [x.size()] of a two-dimensional tensor, as the pair that
    [[batch_size, seq_len] = x.size()] unpacks. *)
Definition size2 {A : Type} (x : list (list A)) : nat * nat :=
  (length x, length (hd [] x)).

(** [x.view(-1, V)] of a three-dimensional tensor: the entries in storage
    order, cut into rows of [V] entries.  The library raises when the
    number of entries is not a multiple of [V]: [None] here. *)
Fixpoint rows_of {A : Type} (fuel V : nat) (flat : list A) : list (list A) :=
  match fuel with
  | O => []
  | S fuel' =>
      match flat with
      | [] => []
      | _ => firstn V flat :: rows_of fuel' V (skipn V flat)
      end
  end.

Definition view {A : Type} (x : list (list (list A))) (V : nat)
  : option (list (list A)) :=
  let flat := concat (concat x) in
  if Nat.eqb V 0 || negb (Nat.eqb (length flat mod V) 0)
  then None
  else Some (rows_of (length flat) V flat).

(** [F.softmax(x)] of a two-dimensional tensor: along dimension 1. *)
Definition softmax_row (row : Tensor1) : Tensor1 :=
  map (fun v => Rtrigo_def.exp v / sum (map Rtrigo_def.exp row)) row.
Definition softmax (x : Tensor2) : Tensor2 := map softmax_row x.

(** A tensor as [F.binary_cross_entropy] meets its target: of float or of
    long type. *)
Inductive dtyped : Type :=
| FloatTensor (x : Tensor2)
| LongTensor (x : LongTensor2).

(** Why the library refuses a call. *)
Inductive refusal : Type :=
| SizeMismatch
| DtypeMismatch.

Definition same_size {A B : Type} (x : list (list A)) (y : list (list B))
  : bool :=
  Nat.eqb (length x) (length y)
  && forallb (fun agree => agree)
             (zip_with (fun r1 r2 => Nat.eqb (length r1) (length r2)) x y).

(** [F.binary_cross_entropy(p, t, size_average=False)].  The library
    raises when the sizes of [p] and [t] differ, and it refuses a target
    that is not a float tensor.  On a float target of the size of [p] it is
    the sum over all entries of [-(t * log p + (1 - t) * log (1 - p))]. *)
Definition bce_entry (p t : R) : R :=
  - (t * ln p + (1 - t) * ln (1 - p)).

Definition binary_cross_entropy (prediction : Tensor2) (target : dtyped)
  : R + refusal :=
  match target with
  | FloatTensor t =>
      if same_size prediction t
      then inl (sum (map sum (zip_with (zip_with bce_entry) prediction t)))
      else inr SizeMismatch
  | LongTensor t =>
      if same_size prediction t then inr DtypeMismatch else inr SizeMismatch
  end.

(** [x.cuda()] moves the storage and keeps the values. *)
Definition cuda {A : Type} (x : A) : A := x.

End Torch.

(** ** The latent sampler of [RVAE.forward] (lines 71-79) *)

(** [std = t.exp(0.5 * logvar)] *)
Definition std_of (logvar : Tensor2) : Tensor2 :=
  Torch.exp (Torch.scale 0.5 logvar).

(** [z = z * std + mu], where the [z] on the right is the draw of
    [t.randn]. *)
Definition z_of (noise mu logvar : Tensor2) : Tensor2 :=
  Torch.add (Torch.mul noise (std_of logvar)) mu.

(** [kld = (-0.5 * t.sum(logvar - t.pow(mu, 2) - t.exp(logvar) + 1, 1)).sum().squeeze()] *)
Definition kld_of (mu logvar : Tensor2) : R :=
  Torch.sum
    (Torch.scale1 (-0.5)
       (Torch.sum_dim1
          (Torch.add_scalar
             (Torch.sub (Torch.sub logvar (Torch.pow mu 2)) (Torch.exp logvar))
             1))).

(** ** The formulas of the specification, by index *)

Fixpoint big_sum (n : nat) (f : nat -> R) : R :=
  match n with
  | O => 0
  | S k => big_sum k f + f k
  end.

(** One row of the KL term: [-0.5 * sum_j (logvar_j - mu_j^2 - exp(logvar_j) + 1)]. *)
Definition kld_row (L : nat) (mu_i logvar_i : nat -> R) : R :=
  -0.5 * big_sum L (fun j =>
                      logvar_i j - (mu_i j) ^ 2 - Rtrigo_def.exp (logvar_i j) + 1).

Definition kld_spec (b L : nat) (mu logvar : Tensor2) : R :=
  big_sum b (fun i => kld_row L (Torch.entry mu i) (Torch.entry logvar i)).


(** ** Line 79 in binary32 arithmetic *)

Module F32.

(** IEEE 754 binary32, the type of the model's float tensors: 24 bits of
    precision, exponents up to 128; operations round to nearest, ties to
    even. *)
Definition prec : Z := 24.
Definition emax : Z := 128.

Definition float32 : Type := SpecFloat.spec_float.

Definition add : float32 -> float32 -> float32 := SpecFloat.SFadd prec emax.
Definition sub : float32 -> float32 -> float32 := SpecFloat.SFsub prec emax.
Definition mul : float32 -> float32 -> float32 := SpecFloat.SFmul prec emax.

Definition zero : float32 := SpecFloat.S754_zero false.
Definition one : float32 := SpecFloat.S754_finite false 8388608 (-23).
Definition minus_half : float32 := SpecFloat.S754_finite true 8388608 (-24).


(** A sum of floats, taken from the left.  The backend is free in the order
    of a sum; on one entry, as in the instance below, there is no order. *)
Definition sum (x : list float32) : float32 := fold_left add x zero.

(** [(-0.5 * t.sum(logvar - t.pow(mu, 2) - t.exp(logvar) + 1, 1)).sum()],
    with the backend's exponential as a parameter; the square is a
    product. *)
Definition kld_of (exp : float32 -> float32)
           (mu logvar : list (list float32)) : float32 :=
  sum (map (fun row => mul minus_half (sum row))
           (Torch.zip_with
              (Torch.zip_with
                 (fun lv m => add (sub (sub lv (mul m m)) (exp lv)) one))
              logvar mu)).


End F32.

(** The text that the loop of [sample] builds from the words it keeps:
    [result += ' ' + word] for each of them in turn. *)
Fixpoint append_words (result : string) (words : list string) : string :=
  match words with
  | [] => result
  | word :: words' => append_words (result ++ " " ++ word)%string words'
  end.

Definition all_zero (x : Tensor2) : Prop := Forall (Forall (fun v => v = 0)) x.

(** ** Exceptions, the log of calls, and the monad *)

Inductive exn : Type :=
| AllocationError     (* the assertion 'Invalid CUDA options. ...' *)
| InputContractError  (* the assertion 'Invalid input. ...' *)
| AttributeError      (* a method of [None] *)
| TypeError           (* arithmetic on [None] *)
| RuntimeError        (* [view] on a size that does not divide *)
| ValueError          (* [F.binary_cross_entropy] on two different sizes *)
| DtypeError          (* [F.binary_cross_entropy] on a long target *)
| IndexError          (* [x[-1]] of an empty array *)
| KeyError.           (* [word_to_idx[word]] of an unknown word *)

Inductive result (A : Type) : Type :=
| Ok (a : A)
| Raise (e : exn).
Arguments Ok {A} a.
Arguments Raise {A} e.

(** Calls to the collaborators; the decoder's call records the latent
    vector it is given, [backward] the loss it is called on. *)
Inductive event : Type :=
| EvEmbedding
| EvEncoder
| EvWordEmbed
| EvDecoder (z : Tensor2)
| EvNextBatch
| EvGoInput
| EvSampleWord
| EvZeroGrad
| EvBackward (loss : R)
| EvStep.

Definition is_decoder_call (e : event) : bool :=
  match e with EvDecoder _ => true | _ => false end.

(** Number of decoder invocations in a log. *)
Definition decoder_calls (l : list event) : nat :=
  length (filter is_decoder_call l).

Record Params : Type := {
  latent_variable_size : nat;
  word_vocab_size : nat
}.

(** [self]: the sub-modules of the model and what the assertions read from
    it.  [parameters_allocation_check] is the value of
    [utils.functional.parameters_allocation_check(self)]. *)
Record RVAE : Type := {
  params : Params;
  parameters_allocation_check : bool;
  is_cuda : bool;
  embedding : LongTensor2 -> LongTensor3 -> Tensor3;
  word_embed : LongTensor2 -> Tensor3;
  encoder : Tensor3 -> Tensor2;
  context_to_mu : Tensor2 -> Tensor2;
  context_to_logvar : Tensor2 -> Tensor2;
  decoder : Tensor3 -> Tensor2 -> option Tensor3 -> Tensor3 * Tensor3
}.

(** [mu] and [logvar] of the training branch of [forward] (lines 65-70). *)
Definition mu_of (self : RVAE) (encoder_word_input : LongTensor2)
           (encoder_character_input : LongTensor3) : Tensor2 :=
  context_to_mu self
    (encoder self (embedding self encoder_word_input encoder_character_input)).

Definition logvar_of (self : RVAE) (encoder_word_input : LongTensor2)
           (encoder_character_input : LongTensor3) : Tensor2 :=
  context_to_logvar self
    (encoder self (embedding self encoder_word_input encoder_character_input)).

(** Modelled from the spec: [utils.functional.fold] is not among the
    sources.  The spec reads the check that [forward] computes with it as
    "all three inputs are provided", which is the fold of the given function
    over the list, from the left, starting at the given value. *)
Definition fold {A B : Type} (f : A -> B -> A) (l : list B) (a : A) : A :=
  fold_left f l a.

Definition is_not_None {A : Type} (x : option A) : bool :=
  match x with Some _ => true | None => false end.

(** The condition of the second assertion of [forward] (lines 54-57);
    [A and B or C] is [(A and B) or C].  The list holds, for each of the
    three inputs, whether it [is not None]. *)
Definition input_contract
           (encoder_word_input : option LongTensor2)
           (encoder_character_input : option LongTensor3)
           (decoder_word_input : option LongTensor2)
           (z : option Tensor2) : bool :=
  negb (is_not_None z)
  && fold (fun acc parameter => acc && parameter)
          [is_not_None encoder_word_input;
           is_not_None encoder_character_input;
           is_not_None decoder_word_input]
          true
  || (is_not_None z && is_not_None decoder_word_input).

(** The two patterns the specification allows. *)
Definition spec_contract
           (encoder_word_input : option LongTensor2)
           (encoder_character_input : option LongTensor3)
           (decoder_word_input : option LongTensor2)
           (z : option Tensor2) : bool :=
  match encoder_word_input, encoder_character_input, decoder_word_input, z with
  | Some _, Some _, Some _, None => true
  | None, None, Some _, Some _ => true
  | _, _, _, _ => false
  end.

Section Model.

(** State of the pseudo-random generator, and the two random primitives
    of the tensor library: [t.randn([b, l])] and [F.dropout(x, p)].
    [dropout] stands for the library's function on a probability
    [0 <= p <= 1]; outside this range the library raises, which is not
    modelled. *)
Variable Rng : Type.
Variable randn : nat -> nat -> Rng -> Tensor2 * Rng.
Variable dropout : Tensor3 -> R -> Rng -> Tensor3 * Rng.

(** [utils.functional.kld_coef], which is not among the sources. *)
Variable kld_coef : Z -> R.

(** The log is kept most recent call first. *)
Record World : Type := {
  rng : Rng;
  log : list event
}.

Definition M (A : Type) : Type := World -> result A * World.

Definition ret {A : Type} (a : A) : M A := fun w => (Ok a, w).

Definition bind {A B : Type} (m : M A) (k : A -> M B) : M B :=
  fun w =>
    match m w with
    | (Ok a, w') => k a w'
    | (Raise e, w') => (Raise e, w')
    end.

Definition raise {A : Type} (e : exn) : M A := fun w => (Raise e, w).

Definition assert (b : bool) (e : exn) : M unit :=
  if b then ret tt else raise e.

Definition emit (e : event) : M unit :=
  fun w => (Ok tt, {| rng := rng w; log := e :: log w |}).

Definition draw {A : Type} (f : Rng -> A * Rng) : M A :=
  fun w => let (a, r) := f (rng w) in (Ok a, {| rng := r; log := log w |}).

(** A value that the code uses as a tensor: [None] raises. *)
Definition tensor {A : Type} (x : option A) : M A :=
  match x with
  | Some a => ret a
  | None => raise AttributeError
  end.

Definition of_option {A : Type} (x : option A) (e : exn) : M A :=
  match x with
  | Some a => ret a
  | None => raise e
  end.

(** The result of a library call that may be refused. *)
Definition of_refusal {A : Type} (x : A + Torch.refusal) : M A :=
  match x with
  | inl a => ret a
  | inr Torch.SizeMismatch => raise ValueError
  | inr Torch.DtypeMismatch => raise DtypeError
  end.

Notation "x <- m ;; k" := (bind m (fun x => k))
  (at level 61, m at next level, right associativity).
Notation "' p <- m ;; k" := (bind m (fun x => match x with p => k end))
  (at level 61, p pattern, m at next level, right associativity).
Notation "m ;; k" := (bind m (fun _ => k))
  (at level 61, right associativity).

(** *** [RVAE.forward] *)

Definition forward (self : RVAE) (drop_prob : R)
           (encoder_word_input : option LongTensor2)
           (encoder_character_input : option LongTensor3)
           (decoder_word_input : option LongTensor2)
           (z : option Tensor2) (initial_state : option Tensor3)
  : M (Tensor3 * Tensor3 * option R) :=
  assert (parameters_allocation_check self) AllocationError ;;
  let use_cuda := is_cuda self in
  assert (input_contract encoder_word_input encoder_character_input
                         decoder_word_input z)
         InputContractError ;;
  ' (z, kld) <-
    match z with
    | None =>
        word_input <- tensor encoder_word_input ;;
        let batch_size := length word_input in
        character_input <- tensor encoder_character_input ;;
        emit EvEmbedding ;;
        let encoder_input := embedding self word_input character_input in
        emit EvEncoder ;;
        let context := encoder self encoder_input in
        let mu := context_to_mu self context in
        let logvar := context_to_logvar self context in
        z <- draw (randn batch_size (latent_variable_size (params self))) ;;
        let z := if use_cuda then Torch.cuda z else z in
        let z := z_of z mu logvar in
        let kld := kld_of mu logvar in
        ret (z, Some kld)
    | Some z => ret (z, None)
    end ;;
  word_input <- tensor decoder_word_input ;;
  emit EvWordEmbed ;;
  let decoder_input := word_embed self word_input in
  decoder_input <- draw (dropout decoder_input drop_prob) ;;
  emit (EvDecoder z) ;;
  let (out, final_state) := decoder self decoder_input z initial_state in
  ret (out, final_state, kld).

(** *** The batch loader *)

Record BatchLoader : Type := {
  (** [next_batch(batch_size, target)], after the conversion of its four
      arrays, the target among them, to long tensors (line 100). *)
  next_batch : nat -> string -> Rng ->
               (LongTensor2 * LongTensor3 * LongTensor2 * LongTensor3) * Rng;
  go_input : nat -> LongTensor2 * LongTensor3;
  sample_word_from_distribution : Tensor1 -> Rng -> string * Rng;
  end_token : string;
  word_to_idx : string -> option Z
}.

(** *** [RVAE.trainer]: the function [train] that it returns.  The
    optimizer's three calls are logged.  The target is the long tensor that
    line 100 makes of it, and line 116 hands it to the cross-entropy as it
    is. *)

Definition train (self : RVAE) (batch_loader : BatchLoader)
           (i : Z) (batch_size : nat) (use_cuda : bool) (drop : R)
  : M (R * R * R) :=
  emit EvNextBatch ;;
  ' (encoder_word_input, encoder_character_input, decoder_word_input, target) <-
    draw (next_batch batch_loader batch_size "train") ;;
  let (batch_size, seq_len) := Torch.size2 decoder_word_input in
  ' (logits, _, kld) <-
    forward self drop (Some encoder_word_input) (Some encoder_character_input)
            (Some decoder_word_input) None None ;;
  logits <- of_option (Torch.view logits (word_vocab_size (params self)))
                      RuntimeError ;;
  let prediction := Torch.softmax logits in
  target <- of_option (Torch.view target (word_vocab_size (params self)))
                      RuntimeError ;;
  bce <- of_refusal
           (Torch.binary_cross_entropy prediction (Torch.LongTensor target)) ;;
  let bce := bce / INR seq_len in
  kld <- of_option kld TypeError ;;
  let loss := (bce + kld_coef i * kld) / INR batch_size in
  emit EvZeroGrad ;;
  emit (EvBackward loss) ;;
  emit EvStep ;;
  ret (bce, kld, kld_coef i).

(** *** [RVAE.sample] *)

(** The [for i in range(seq_len)] loop, with [n] iterations left. *)
Fixpoint sample_loop (self : RVAE) (batch_loader : BatchLoader)
         (seed : Tensor2) (use_cuda : bool) (n : nat)
         (decoder_word_input : LongTensor2) (result : string)
         (initial_state : option Tensor3) : M string :=
  match n with
  | O => ret result
  | S n' =>
      ' (logits, initial_state, _) <-
        forward self 0 None None (Some decoder_word_input) (Some seed)
                initial_state ;;
      logits <- of_option (Torch.view logits (word_vocab_size (params self)))
                          RuntimeError ;;
      let prediction := Torch.softmax logits in
      distribution <- of_option (last (map Some prediction) None) IndexError ;;
      emit EvSampleWord ;;
      word <- draw (sample_word_from_distribution batch_loader distribution) ;;
      if String.eqb word (end_token batch_loader)
      then ret result
      else
        let result := (result ++ " " ++ word)%string in
        idx <- of_option (word_to_idx batch_loader word) KeyError ;;
        let decoder_word_input_np := [[idx]] in
        let decoder_word_input :=
          if use_cuda then Torch.cuda decoder_word_input_np
          else decoder_word_input_np in
        sample_loop self batch_loader seed use_cuda n'
                    decoder_word_input result (Some initial_state)
  end.

Definition sample (self : RVAE) (batch_loader : BatchLoader)
           (seq_len : Z) (seed : Tensor2) (use_cuda : bool) : M string :=
  let seed := if use_cuda then Torch.cuda seed else seed in
  emit EvGoInput ;;
  let (decoder_word_input_np, _) := go_input batch_loader 1 in
  let decoder_word_input :=
    if use_cuda then Torch.cuda decoder_word_input_np
    else decoder_word_input_np in
  sample_loop self batch_loader seed use_cuda (Z.to_nat seq_len)
              decoder_word_input EmptyString None.

End Model.

Arguments rng {Rng} w.
Arguments log {Rng} w.
Arguments Build_World {Rng} rng log.
Arguments forward {Rng} randn dropout self drop_prob encoder_word_input
  encoder_character_input decoder_word_input z initial_state _.
Arguments train {Rng} randn dropout kld_coef self batch_loader i batch_size
  use_cuda drop _.
Arguments sample_loop {Rng} randn dropout self batch_loader seed use_cuda n
  decoder_word_input result initial_state _.
Arguments sample {Rng} randn dropout self batch_loader seq_len seed use_cuda _.
Arguments next_batch {Rng} b _ _ _.
Arguments go_input {Rng} b _.
Arguments sample_word_from_distribution {Rng} b _ _.
Arguments end_token {Rng} b.
Arguments word_to_idx {Rng} b _.

(** ** Further vocabulary for the logs, and [learnable_paramters] *)

Definition is_optimizer_call (e : event) : bool :=
  match e with
  | EvZeroGrad | EvBackward _ | EvStep => true
  | _ => false
  end.

(** Number of calls to the optimizer ([zero_grad], [backward], [step]) in a
    log. *)
Definition optimizer_calls (l : list event) : nat :=
  length (filter is_optimizer_call l).

(** The calls that [sample] may make with the latent vector [seed]. *)
Definition sampling_event (seed : Tensor2) (e : event) : Prop :=
  e = EvGoInput \/ e = EvWordEmbed \/ e = EvDecoder seed \/ e = EvSampleWord.

(** The text appended for a list of words, on its own:
    [' ' + word] for each of them. *)
Fixpoint words_text (words : list string) : string :=
  match words with
  | [] => EmptyString
  | word :: words' => (" " ++ word ++ words_text words')%string
  end.

(** A parameter of the module, as [self.parameters()] yields it. *)
Record TorchParameter : Type := {
  data : Tensor2;
  requires_grad : bool
}.

(** [RVAE.learnable_paramters] (lines 91-93), on the list that
    [self.parameters()] returns. *)
Definition learnable_paramters (parameters : list TorchParameter)
  : list TorchParameter :=
  filter requires_grad parameters.

(** ** Small concrete instances, to run the definitions on *)

Module Mock.

(** A generator without state; the noise is all ones, dropout keeps every
    entry. *)
Definition randn (b l : nat) (r : unit) : Tensor2 * unit :=
  (repeat (repeat 1 l) b, r).

Definition dropout (x : Tensor3) (p : R) (r : unit) : Tensor3 * unit := (x, r).

Definition kld_coef (i : Z) : R := 1.

Definition embed_index (w : LongTensor2) : Tensor3 :=
  map (map (fun i => [IZR i])) w.

(** One latent dimension and a vocabulary of two words; every collaborator
    is a constant map or a projection, the decoder answers with the logits
    [[0; 0]] of one position and keeps [z] as its state. *)
Definition model : RVAE := {|
  params := {| latent_variable_size := 1; word_vocab_size := 2 |};
  parameters_allocation_check := true;
  is_cuda := false;
  embedding := fun w _ => embed_index w;
  word_embed := embed_index;
  encoder := map (fun _ => [0]);
  context_to_mu := fun c => c;
  context_to_logvar := fun c => c;
  decoder := fun _ z _ => ([[[0; 0]]], [z])
|}.

(** A loader whose sampler draws the word [w] whatever the distribution. *)
Definition loader (w : string) : BatchLoader unit := {|
  next_batch := fun _ _ r => (([[1%Z]], [[[1%Z]]], [[1%Z]], [[[0%Z; 1%Z]]]), r);
  go_input := fun _ => ([[0%Z]], [[[0%Z]]]);
  sample_word_from_distribution := fun _ r => (w, r);
  end_token := "</s>"%string;
  word_to_idx := fun _ => Some 1%Z
|}.

Definition world : World unit := {| rng := tt; log := [] |}.

End Mock.

Module Cases.

(** The model of [Mock] with parameters on two devices. *)
Definition unallocated : RVAE := {|
  params := params Mock.model;
  parameters_allocation_check := false;
  is_cuda := false;
  embedding := embedding Mock.model;
  word_embed := word_embed Mock.model;
  encoder := encoder Mock.model;
  context_to_mu := context_to_mu Mock.model;
  context_to_logvar := context_to_logvar Mock.model;
  decoder := decoder Mock.model
|}.

(** The model of [Mock] with a decoder that answers three logits, for a
    vocabulary of two words. *)
Definition odd_logits : RVAE := {|
  params := params Mock.model;
  parameters_allocation_check := true;
  is_cuda := false;
  embedding := embedding Mock.model;
  word_embed := word_embed Mock.model;
  encoder := encoder Mock.model;
  context_to_mu := context_to_mu Mock.model;
  context_to_logvar := context_to_logvar Mock.model;
  decoder := fun _ z _ => ([[[0; 0; 0]]], [z])
|}.

(** A loader whose sampler draws a word that the index does not know. *)
Definition unknown_word : BatchLoader unit := {|
  next_batch := next_batch (Mock.loader "a");
  go_input := go_input (Mock.loader "a");
  sample_word_from_distribution := fun _ r => ("zzz"%string, r);
  end_token := "</s>"%string;
  word_to_idx := fun _ => None
|}.

(** A batch of two sentences of two words, two latent dimensions and a
    vocabulary of two words.  The context of a sentence is the first entry
    of the embedding of each of its words; [mu] is the context and [logvar]
    the context with its two rows exchanged; the noise counts up from 2 along
    the rows. *)
Definition randn22 (b l : nat) (r : unit) : Tensor2 * unit :=
  (map (fun i => map (fun j => IZR (Z.of_nat (i * l + j + 2))) (seq 0 l))
       (seq 0 b),
   r).

Definition two_by_two : RVAE := {|
  params := {| latent_variable_size := 2; word_vocab_size := 2 |};
  parameters_allocation_check := true;
  is_cuda := false;
  embedding := fun w _ => Mock.embed_index w;
  word_embed := Mock.embed_index;
  encoder := map (map (hd 0));
  context_to_mu := fun c => c;
  context_to_logvar := @rev (list R);
  decoder := fun _ z _ => ([[[1; 2]; [3; 4]]; [[5; 6]; [7; 8]]], [z])
|}.

Definition loader22 : BatchLoader unit := {|
  next_batch := fun _ _ r =>
    (([[1%Z; 2%Z]; [3%Z; 4%Z]],
      [[[1%Z]; [2%Z]]; [[3%Z]; [4%Z]]],
      [[5%Z; 6%Z]; [7%Z; 8%Z]],
      [[[0%Z; 1%Z]; [1%Z; 0%Z]]; [[1%Z; 0%Z]; [0%Z; 1%Z]]]), r);
  go_input := fun _ => ([[0%Z]], [[[0%Z]]]);
  sample_word_from_distribution := fun _ r => ("a"%string, r);
  end_token := "</s>"%string;
  word_to_idx := fun _ => Some 1%Z
|}.

End Cases.

(** * Theorems *)

(** ** The definitions on small inputs *)

Example input_contract_training :
  input_contract (Some [[1%Z]]) (Some [[[1%Z]]]) (Some [[2%Z]]) None = true.
Proof. reflexivity. Qed.

Example input_contract_missing_characters :
  input_contract (Some [[1%Z]]) None (Some [[2%Z]]) None = false.
Proof. reflexivity. Qed.

Example input_contract_sampling :
  input_contract None None (Some [[2%Z]]) (Some [[0]]) = true.
Proof. reflexivity. Qed.

Example input_contract_z_without_decoder_input :
  input_contract None None None (Some [[0]]) = false.
Proof. reflexivity. Qed.

Example input_contract_z_and_encoder_inputs :
  input_contract (Some [[1%Z]]) (Some [[[1%Z]]]) (Some [[2%Z]]) (Some [[0]])
  = true.
Proof. reflexivity. Qed.

Example view_two_columns :
  Torch.view [[[1%Z; 2%Z]; [3%Z; 4%Z]]; [[5%Z; 6%Z]; [7%Z; 8%Z]]] 2
  = Some [[1%Z; 2%Z]; [3%Z; 4%Z]; [5%Z; 6%Z]; [7%Z; 8%Z]].
Proof. reflexivity. Qed.

Example view_not_a_multiple :
  Torch.view [[[1%Z; 2%Z; 3%Z]]] 2 = None.
Proof. reflexivity. Qed.

Example cross_entropy_long_target :
  Torch.binary_cross_entropy [[0.5; 0.5]] (Torch.LongTensor [[0%Z; 1%Z]])
  = inr Torch.DtypeMismatch.
Proof. reflexivity. Qed.

Example cross_entropy_sizes_differ :
  Torch.binary_cross_entropy [[0.5; 0.5]] (Torch.LongTensor [[0%Z]])
  = inr Torch.SizeMismatch.
Proof. reflexivity. Qed.

Example kld_float32_at_zero :
  F32.kld_of (fun _ => F32.one) [[F32.zero]] [[F32.zero]] = F32.zero.
Proof. vm_compute. reflexivity. Qed.

Example append_words_two :
  append_words EmptyString ["the"; "end"]%string = " the end"%string.
Proof. reflexivity. Qed.

Example decoder_calls_two :
  decoder_calls [EvSampleWord; EvDecoder [[0]]; EvWordEmbed;
                 EvSampleWord; EvDecoder [[0]]; EvWordEmbed; EvGoInput]
  = 2%nat.
Proof. reflexivity. Qed.

(** ** Lists and sums *)

Lemma big_sum_ext n f g :
  (forall i, (i < n)%nat -> f i = g i) -> big_sum n f = big_sum n g.
Proof.
  induction n as [|n IH]; intros H; simpl; [reflexivity|].
  rewrite IH, H by (intros; try apply H; lia). reflexivity.
Qed.

Lemma big_sum_shift n f :
  big_sum (S n) f = f O + big_sum n (fun i => f (S i)).
Proof.
  induction n as [|n IH].
  - simpl. lra.
  - change (big_sum (S (S n)) f) with (big_sum (S n) f + f (S n)).
    rewrite IH. simpl. lra.
Qed.

Lemma sum_big_sum (x : Tensor1) :
  Torch.sum x = big_sum (length x) (fun i => nth i x 0).
Proof.
  induction x as [|v x IH]; [reflexivity|].
  cbn [length]. rewrite big_sum_shift. simpl. rewrite IH. reflexivity.
Qed.

Lemma length_zip_with {A B C : Type} (f : A -> B -> C) xs ys :
  length (Torch.zip_with f xs ys) = Nat.min (length xs) (length ys).
Proof.
  revert ys. induction xs as [|x xs IH]; intros [|y ys]; simpl; auto.
Qed.

Lemma nth_zip_with {A B C : Type} (f : A -> B -> C) xs ys i da db dc :
  (i < length xs)%nat -> (i < length ys)%nat ->
  nth i (Torch.zip_with f xs ys) dc = f (nth i xs da) (nth i ys db).
Proof.
  revert ys i. induction xs as [|x xs IH]; intros [|y ys] [|i]; simpl;
    intros H1 H2; try lia; [reflexivity|].
  apply IH; lia.
Qed.

Lemma nth_map_in {A B : Type} (f : A -> B) l i da db :
  (i < length l)%nat -> nth i (map f l) db = f (nth i l da).
Proof.
  revert i. induction l as [|x l IH]; intros [|i]; simpl; intros H;
    try lia; [reflexivity|].
  apply IH; lia.
Qed.

Lemma has_size_spec {A : Type} (x : list (list A)) b l :
  Torch.has_size x b l = true <->
  length x = b /\ forall i, (i < b)%nat -> length (nth i x []) = l.
Proof.
  unfold Torch.has_size. rewrite andb_true_iff, Nat.eqb_eq, forallb_forall.
  split; intros [Hb Hr]; split; try assumption.
  - intros i Hi. apply Nat.eqb_eq, Hr, nth_In. lia.
  - intros row Hin. apply Nat.eqb_eq.
    destruct (In_nth _ _ [] Hin) as (i & Hi & <-). apply Hr. lia.
Qed.

Lemma sum_zip_with {A B : Type} (f : A -> B -> R) xs ys n da db :
  length xs = n -> length ys = n ->
  Torch.sum (Torch.zip_with f xs ys)
  = big_sum n (fun i => f (nth i xs da) (nth i ys db)).
Proof.
  intros Hx Hy. rewrite sum_big_sum, length_zip_with, Hx, Hy, Nat.min_id.
  apply big_sum_ext. intros i Hi. apply nth_zip_with; lia.
Qed.


(** ** Tensor operations, entry by entry *)

Lemma has_size_pointwise f x b l :
  Torch.has_size x b l = true -> Torch.has_size (Torch.pointwise f x) b l = true.
Proof.
  rewrite !has_size_spec. unfold Torch.pointwise. intros [Hb Hr].
  rewrite length_map. split; [assumption|].
  intros i Hi. rewrite (nth_map_in _ _ _ [] []) by lia.
  rewrite length_map. now apply Hr.
Qed.

Lemma entry_pointwise f x b l i j :
  Torch.has_size x b l = true -> (i < b)%nat -> (j < l)%nat ->
  Torch.entry (Torch.pointwise f x) i j = f (Torch.entry x i j).
Proof.
  rewrite has_size_spec. intros [Hb Hr] Hi Hj.
  unfold Torch.entry, Torch.pointwise.
  rewrite (nth_map_in _ _ _ [] []) by lia.
  apply nth_map_in. rewrite Hr; assumption.
Qed.

Lemma has_size_pointwise2 f x y b l :
  Torch.has_size x b l = true -> Torch.has_size y b l = true ->
  Torch.has_size (Torch.pointwise2 f x y) b l = true.
Proof.
  rewrite !has_size_spec. unfold Torch.pointwise2.
  intros [Hxb Hxr] [Hyb Hyr]. rewrite length_zip_with, Hxb, Hyb, Nat.min_id.
  split; [reflexivity|]. intros i Hi.
  rewrite (nth_zip_with _ _ _ _ [] []) by lia.
  rewrite length_zip_with, Hxr, Hyr by assumption. apply Nat.min_id.
Qed.

Lemma entry_pointwise2 f x y b l i j :
  Torch.has_size x b l = true -> Torch.has_size y b l = true ->
  (i < b)%nat -> (j < l)%nat ->
  Torch.entry (Torch.pointwise2 f x y) i j
  = f (Torch.entry x i j) (Torch.entry y i j).
Proof.
  rewrite !has_size_spec. intros [Hxb Hxr] [Hyb Hyr] Hi Hj.
  unfold Torch.entry, Torch.pointwise2.
  rewrite (nth_zip_with _ _ _ _ [] []) by lia.
  apply nth_zip_with; [rewrite Hxr | rewrite Hyr]; assumption.
Qed.

(** ** The latent sampler *)

Lemma std_of_size logvar b l :
  Torch.has_size logvar b l = true -> Torch.has_size (std_of logvar) b l = true.
Proof.
  intros H. unfold std_of, Torch.exp, Torch.scale.
  now do 2 apply has_size_pointwise.
Qed.

Lemma z_of_size noise mu logvar b l :
  Torch.has_size noise b l = true -> Torch.has_size mu b l = true ->
  Torch.has_size logvar b l = true ->
  Torch.has_size (z_of noise mu logvar) b l = true.
Proof.
  intros Hn Hm Hl. unfold z_of, Torch.add, Torch.mul.
  apply has_size_pointwise2; [|assumption].
  apply has_size_pointwise2; [assumption|]. now apply std_of_size.
Qed.

Lemma z_of_entry noise mu logvar b l i j :
  Torch.has_size noise b l = true -> Torch.has_size mu b l = true ->
  Torch.has_size logvar b l = true -> (i < b)%nat -> (j < l)%nat ->
  Torch.entry (z_of noise mu logvar) i j
  = Torch.entry noise i j * Rtrigo_def.exp (0.5 * Torch.entry logvar i j)
    + Torch.entry mu i j.
Proof.
  intros Hn Hm Hl Hi Hj. unfold z_of, Torch.add, Torch.mul.
  rewrite (entry_pointwise2 _ _ _ b l); try assumption.
  2:{ apply has_size_pointwise2; [assumption|]. now apply std_of_size. }
  rewrite (entry_pointwise2 _ _ _ b l); try assumption.
  2:{ now apply std_of_size. }
  unfold std_of, Torch.exp, Torch.scale.
  rewrite (entry_pointwise _ _ b l); try assumption.
  2:{ now apply has_size_pointwise. }
  rewrite (entry_pointwise _ _ b l); try assumption.
  reflexivity.
Qed.

(** ** The KL term *)

(** The tensor expression under the sums, computed entry by entry. *)
Lemma kld_rows_fused (mu logvar : Tensor1) :
  map (fun v => v + 1)
      (Torch.zip_with Rminus
         (Torch.zip_with Rminus logvar (map (fun v => v ^ 2) mu))
         (map Rtrigo_def.exp logvar))
  = Torch.zip_with (fun lv m => lv - m ^ 2 - Rtrigo_def.exp lv + 1) logvar mu.
Proof.
  revert mu. induction logvar as [|lv logvar IH]; intros [|m mu];
    simpl; try reflexivity.
  now rewrite IH.
Qed.

Lemma kld_of_fused (mu logvar : Tensor2) :
  kld_of mu logvar
  = Torch.sum
      (Torch.zip_with
         (fun lv m =>
            -0.5 * Torch.sum
                     (Torch.zip_with
                        (fun x y => x - y ^ 2 - Rtrigo_def.exp x + 1) lv m))
         logvar mu).
Proof.
  unfold kld_of, Torch.scale1, Torch.sum_dim1, Torch.add_scalar, Torch.sub,
    Torch.pow, Torch.exp, Torch.pointwise, Torch.pointwise2.
  f_equal. revert mu.
  induction logvar as [|lv logvar IH]; intros [|m mu]; simpl; try reflexivity.
  now rewrite IH, kld_rows_fused.
Qed.




Lemma kld_of_spec mu logvar b L :
  Torch.has_size mu b L = true -> Torch.has_size logvar b L = true ->
  kld_of mu logvar = kld_spec b L mu logvar.
Proof.
  rewrite !has_size_spec. intros [Hmb Hmr] [Hlb Hlr].
  rewrite kld_of_fused, (sum_zip_with _ _ _ b [] []) by assumption.
  unfold kld_spec, kld_row. apply big_sum_ext. intros i Hi.
  rewrite (sum_zip_with _ _ _ L 0 0) by auto. reflexivity.
Qed.

Section Proofs.

Context {Rng : Type}.
Variable randn : nat -> nat -> Rng -> Tensor2 * Rng.
Variable dropout : Tensor3 -> R -> Rng -> Tensor3 * Rng.
Variable kld_coef : Z -> R.

Ltac run :=
  unfold bind, assert, ret, raise, emit, draw, tensor, of_option, Torch.cuda;
  simpl.

(** ** [forward], path by path *)

Lemma forward_allocation self drop ewi eci dwi z init (w : World Rng) :
  parameters_allocation_check self = false ->
  forward randn dropout self drop ewi eci dwi z init w
  = (Raise AllocationError, w).
Proof. intros H. unfold forward. run. rewrite H. reflexivity. Qed.

Lemma forward_rejected self drop ewi eci dwi z init (w : World Rng) :
  parameters_allocation_check self = true ->
  input_contract ewi eci dwi z = false ->
  forward randn dropout self drop ewi eci dwi z init w
  = (Raise InputContractError, w).
Proof. intros Ha Hc. unfold forward. run. rewrite Ha, Hc. reflexivity. Qed.

Lemma forward_training self drop ewi eci dwi init (w : World Rng)
      noise r1 decoder_input r2 :
  parameters_allocation_check self = true ->
  randn (length ewi) (latent_variable_size (params self)) (rng w)
  = (noise, r1) ->
  dropout (word_embed self dwi) drop r1 = (decoder_input, r2) ->
  forward randn dropout self drop (Some ewi) (Some eci) (Some dwi) None init w
  = (Ok (fst (decoder self decoder_input
                (z_of noise (mu_of self ewi eci) (logvar_of self ewi eci)) init),
         snd (decoder self decoder_input
                (z_of noise (mu_of self ewi eci) (logvar_of self ewi eci)) init),
         Some (kld_of (mu_of self ewi eci) (logvar_of self ewi eci))),
     {| rng := r2;
        log := EvDecoder
                 (z_of noise (mu_of self ewi eci) (logvar_of self ewi eci))
               :: EvWordEmbed :: EvEncoder :: EvEmbedding :: log w |}).
Proof.
  intros Ha Hn Hd. unfold forward, mu_of, logvar_of. run. rewrite Ha. simpl.
  rewrite Hn. simpl. destruct (is_cuda self); rewrite Hd; simpl;
    destruct (decoder self _ _ _); reflexivity.
Qed.

Lemma forward_conditional self drop ewi eci dwi z init (w : World Rng)
      decoder_input r1 :
  parameters_allocation_check self = true ->
  dropout (word_embed self dwi) drop (rng w) = (decoder_input, r1) ->
  forward randn dropout self drop ewi eci (Some dwi) (Some z) init w
  = (Ok (fst (decoder self decoder_input z init),
         snd (decoder self decoder_input z init),
         None),
     {| rng := r1; log := EvDecoder z :: EvWordEmbed :: log w |}).
Proof.
  intros Ha Hd. unfold forward. run. rewrite Ha.
  replace (input_contract ewi eci (Some dwi) (Some z)) with true
    by reflexivity.
  simpl. rewrite Hd. simpl. destruct (decoder self _ _ _); reflexivity.
Qed.

Lemma input_contract_false ewi eci dwi z :
  input_contract ewi eci dwi z = false <->
  (z = None /\ (ewi = None \/ eci = None \/ dwi = None))
  \/ (z <> None /\ dwi = None).
Proof.
  unfold input_contract, fold.
  destruct ewi, eci, dwi, z; simpl; split; intros H;
    try discriminate; try reflexivity;
    try (left; split; [reflexivity | tauto]);
    try (right; split; [discriminate | reflexivity]);
    destruct H as [[H1 H2] | [H1 H2]];
    try discriminate; try (now destruct H1);
    destruct H2 as [H2 | [H2 | H2]]; discriminate.
Qed.

Lemma forward_accepted self drop ewi eci dwi z init (w : World Rng) :
  parameters_allocation_check self = true ->
  input_contract ewi eci dwi z = true ->
  exists out final_state kld w',
    forward randn dropout self drop ewi eci dwi z init w
    = (Ok (out, final_state, kld), w')
    /\ (z = None -> exists k, kld = Some k)
    /\ (z <> None -> kld = None).
Proof.
  intros Ha Hc.
  destruct z as [z|].
  - destruct dwi as [dwi|]; [|destruct ewi, eci; discriminate].
    destruct (dropout (word_embed self dwi) drop (rng w)) as [di r1] eqn:Hd.
    do 4 eexists. split; [|split].
    + eapply forward_conditional; eassumption.
    + discriminate.
    + reflexivity.
  - destruct ewi as [ewi|], eci as [eci|], dwi as [dwi|]; try discriminate.
    destruct (randn (length ewi) (latent_variable_size (params self)) (rng w))
      as [noise r1] eqn:Hn.
    destruct (dropout (word_embed self dwi) drop r1) as [di r2] eqn:Hd.
    do 4 eexists. split; [|split].
    + eapply forward_training; eassumption.
    + intros _. eexists. reflexivity.
    + congruence.
Qed.

(** ** The input contract of [forward] *)

(** C1, as amended.  On a model that passes the allocation check, [forward]
    raises the input-contract error, with the generator and the log of
    calls untouched, exactly when [z] is absent and one of the three inputs
    is absent, or [z] is present and the decoder word input is absent.  With
    [z] and the decoder word input present the call is accepted, whether or
    not encoder inputs come with them. *)
Theorem forward_input_contract_error
        self drop ewi eci dwi z init (w : World Rng) :
  parameters_allocation_check self = true ->
  (forward randn dropout self drop ewi eci dwi z init w
   = (Raise InputContractError, w)
   <-> (z = None /\ (ewi = None \/ eci = None \/ dwi = None))
       \/ (z <> None /\ dwi = None)).
Proof.
  intros Ha. rewrite <- input_contract_false. split.
  - intros Hf.
    destruct (input_contract ewi eci dwi z) eqn:Hc; [|reflexivity].
    destruct (forward_accepted self drop ewi eci dwi z init w Ha Hc)
      as (out & st & kld & w' & Hok & _).
    rewrite Hok in Hf. discriminate.
  - intros Hc. now apply forward_rejected.
Qed.

(** C2.  A call that passes both assertions returns, and the [kld] it
    returns is a number when [z] was absent and [None] when [z] was
    given. *)
Theorem forward_kld_defined_iff_z_absent
        self drop ewi eci dwi z init (w : World Rng) :
  parameters_allocation_check self = true ->
  input_contract ewi eci dwi z = true ->
  exists out final_state kld w',
    forward randn dropout self drop ewi eci dwi z init w
    = (Ok (out, final_state, kld), w')
    /\ (z = None -> exists k, kld = Some k)
    /\ (z <> None -> kld = None).
Proof. apply forward_accepted. Qed.

(** ** The KL term and the latent vector of the training branch *)

(** C3.  In the training branch, with [mu] and [logvar] of shape
    [[b, L]], the [kld] that [forward] returns is the sum over the [b] rows
    (not their mean) of [-0.5 * sum over the L latent dimensions of
    (logvar - mu^2 - exp(logvar) + 1)]. *)
Theorem forward_kld_sum_over_batch
        self drop ewi eci dwi init (w : World Rng) (b L : nat) :
  parameters_allocation_check self = true ->
  Torch.has_size (mu_of self ewi eci) b L = true ->
  Torch.has_size (logvar_of self ewi eci) b L = true ->
  exists out final_state w',
    forward randn dropout self drop (Some ewi) (Some eci) (Some dwi) None init w
    = (Ok (out, final_state,
           Some (big_sum b (fun i =>
                   -0.5 * big_sum L (fun j =>
                            Torch.entry (logvar_of self ewi eci) i j
                            - Torch.entry (mu_of self ewi eci) i j ^ 2
                            - Rtrigo_def.exp
                                (Torch.entry (logvar_of self ewi eci) i j)
                            + 1)))),
       w').
Proof.
  intros Ha Hm Hl.
  destruct (randn (length ewi) (latent_variable_size (params self)) (rng w))
    as [noise r1] eqn:Hn.
  destruct (dropout (word_embed self dwi) drop r1) as [di r2] eqn:Hd.
  do 3 eexists.
  rewrite (forward_training self drop ewi eci dwi init w noise r1 di r2 Ha Hn Hd).
  rewrite (kld_of_spec _ _ b L Hm Hl). reflexivity.
Qed.

(** C4.  In the training branch, for the noise that [t.randn] draws, the
    latent vector handed to the decoder is determined by the noise, [mu]
    and [logvar]: it has their shape and its entries are
    [noise * exp(0.5 * logvar) + mu]. *)
Theorem forward_latent_vector
        self drop ewi eci dwi init (w : World Rng) noise r1 (b L : nat) :
  parameters_allocation_check self = true ->
  randn (length ewi) (latent_variable_size (params self)) (rng w)
  = (noise, r1) ->
  Torch.has_size noise b L = true ->
  Torch.has_size (mu_of self ewi eci) b L = true ->
  Torch.has_size (logvar_of self ewi eci) b L = true ->
  exists out final_state kld w' z past,
    forward randn dropout self drop (Some ewi) (Some eci) (Some dwi) None init w
    = (Ok (out, final_state, kld), w')
    /\ log w' = EvDecoder z :: past
    /\ decoder_calls past = decoder_calls (log w)
    /\ Torch.has_size z b L = true
    /\ forall i j, (i < b)%nat -> (j < L)%nat ->
         Torch.entry z i j
         = Torch.entry noise i j
           * Rtrigo_def.exp (0.5 * Torch.entry (logvar_of self ewi eci) i j)
           + Torch.entry (mu_of self ewi eci) i j.
Proof.
  intros Ha Hn Hs Hm Hl.
  destruct (dropout (word_embed self dwi) drop r1) as [di r2] eqn:Hd.
  do 6 eexists.
  rewrite (forward_training self drop ewi eci dwi init w noise r1 di r2 Ha Hn Hd).
  split; [reflexivity|]. split; [reflexivity|]. split; [reflexivity|].
  split.
  - now apply z_of_size.
  - intros i j Hi Hj. now apply (z_of_entry _ _ _ b L).
Qed.


(** ** The training step *)

(** C5, where the code departs from it.  When the batch loader delivers a
    batch, [forward] returns on it, and logits and target reshape to
    [[_, word_vocab_size]], the step does not return the triple: the
    cross-entropy of line 116 receives the target that line 100 has made a
    long tensor and raises (for the sizes, when they differ, else for the
    type), in the state that [forward] left, so that [zero_grad], [backward]
    and [step] are not reached. *)
Theorem train_raises_at_cross_entropy
        self (batch_loader : BatchLoader Rng) i batch_size use_cuda drop
        (w : World Rng) ewi eci dwi target r1 logits final_state kld w1
        logits2 target2 :
  next_batch batch_loader batch_size "train" (rng w)
  = ((ewi, eci, dwi, target), r1) ->
  forward randn dropout self drop (Some ewi) (Some eci) (Some dwi) None None
          {| rng := r1; log := EvNextBatch :: log w |}
  = (Ok (logits, final_state, kld), w1) ->
  Torch.view logits (word_vocab_size (params self)) = Some logits2 ->
  Torch.view target (word_vocab_size (params self)) = Some target2 ->
  train randn dropout kld_coef self batch_loader i batch_size use_cuda drop w
  = (Raise (if Torch.same_size (Torch.softmax logits2) target2
            then DtypeError else ValueError),
     w1).
Proof.
  intros Hb Hf Hl Ht. unfold train. run. rewrite Hb. simpl.
  rewrite Hf. simpl. rewrite Hl, Ht. simpl.
  unfold of_refusal, Torch.binary_cross_entropy.
  destruct (Torch.same_size (Torch.softmax logits2) target2); reflexivity.
Qed.

(** ** The sampling loop *)

Lemma forward_conditional_log self drop dwi z init (w w' : World Rng) r :
  forward randn dropout self drop None None (Some dwi) (Some z) init w
  = (Ok r, w') ->
  log w' = EvDecoder z :: EvWordEmbed :: log w.
Proof.
  intros Hf.
  destruct (parameters_allocation_check self) eqn:Ha.
  - destruct (dropout (word_embed self dwi) drop (rng w)) as [di r1] eqn:Hd.
    rewrite (forward_conditional self drop None None dwi z init w di r1 Ha Hd)
      in Hf.
    now inversion Hf.
  - rewrite forward_allocation in Hf by assumption. discriminate.
Qed.

(** C7.  With a length budget of at least one, when the first decoder step
    succeeds and the word drawn from its distribution is the end token, the
    loop stops there: the decoder has been called exactly once and the
    result is the empty string. *)
Theorem sample_stops_at_end_token
        self (batch_loader : BatchLoader Rng) seq_len seed use_cuda
        (w : World Rng) dwi0 dci0 logits final_state kld w1 logits2
        distribution r2 :
  (1 <= seq_len)%Z ->
  go_input batch_loader 1 = (dwi0, dci0) ->
  forward randn dropout self 0 None None (Some dwi0) (Some seed) None
          {| rng := rng w; log := EvGoInput :: log w |}
  = (Ok (logits, final_state, kld), w1) ->
  Torch.view logits (word_vocab_size (params self)) = Some logits2 ->
  last (map Some (Torch.softmax logits2)) None = Some distribution ->
  sample_word_from_distribution batch_loader distribution (rng w1)
  = (end_token batch_loader, r2) ->
  sample randn dropout self batch_loader seq_len seed use_cuda w
  = (Ok EmptyString, {| rng := r2; log := EvSampleWord :: log w1 |})
  /\ decoder_calls (EvSampleWord :: log w1) = S (decoder_calls (log w)).
Proof.
  intros Hlen Hgo Hf Hv Hlast Hdraw. split.
  - unfold sample. run. rewrite Hgo.
    destruct (Z.to_nat seq_len) as [|n] eqn:Hn; [lia|].
    replace (if use_cuda then seed else seed) with seed by now destruct use_cuda.
    replace (if use_cuda then dwi0 else dwi0) with dwi0 by now destruct use_cuda.
    cbn [sample_loop]. run. rewrite Hf. simpl. rewrite Hv. simpl.
    rewrite Hlast. simpl. rewrite Hdraw. simpl.
    now rewrite String.eqb_refl.
  - rewrite (forward_conditional_log _ _ _ _ _ _ _ _ Hf). reflexivity.
Qed.

(** C10.  With a length budget of zero or less the loop body never runs:
    the result is the empty string and the only call logged is the one to
    [go_input], so the decoder is not invoked. *)
Theorem sample_nonpositive_length
        self (batch_loader : BatchLoader Rng) seq_len seed use_cuda
        (w : World Rng) :
  (seq_len <= 0)%Z ->
  sample randn dropout self batch_loader seq_len seed use_cuda w
  = (Ok EmptyString, {| rng := rng w; log := EvGoInput :: log w |})
  /\ decoder_calls (EvGoInput :: log w) = decoder_calls (log w).
Proof.
  intros Hlen. split; [|reflexivity].
  unfold sample. run. destruct (go_input batch_loader 1) as [dwi0 dci0].
  replace (Z.to_nat seq_len) with O by lia. reflexivity.
Qed.



End Proofs.

(** * Further properties of the code *)

Section MoreProofs.

Context {Rng : Type}.
Variable randn : nat -> nat -> Rng -> Tensor2 * Rng.
Variable dropout : Tensor3 -> R -> Rng -> Tensor3 * Rng.
Variable kld_coef : Z -> R.

Ltac run_monad :=
  unfold bind, assert, ret, raise, emit, draw, tensor, of_option, Torch.cuda;
  simpl.

(** ** [forward] *)

Lemma forward_outcome self drop ewi eci dwi z init (w : World Rng) :
  (parameters_allocation_check self = false
   /\ forward randn dropout self drop ewi eci dwi z init w
      = (Raise AllocationError, w))
  \/ (parameters_allocation_check self = true
      /\ input_contract ewi eci dwi z = false
      /\ forward randn dropout self drop ewi eci dwi z init w
         = (Raise InputContractError, w))
  \/ (parameters_allocation_check self = true
      /\ input_contract ewi eci dwi z = true
      /\ exists out final_state kld r past,
          forward randn dropout self drop ewi eci dwi z init w
          = (Ok (out, final_state, kld), {| rng := r; log := past ++ log w |})
          /\ decoder_calls past = 1%nat
          /\ optimizer_calls past = 0%nat).
Proof.
  destruct (parameters_allocation_check self) eqn:Ha.
  - right. destruct (input_contract ewi eci dwi z) eqn:Hc.
    + right. split; [reflexivity|]. split; [reflexivity|].
      destruct z as [z|].
      * destruct dwi as [dwi|]; [|destruct ewi, eci; discriminate].
        destruct (dropout (word_embed self dwi) drop (rng w)) as [di r1] eqn:Hd.
        exists (fst (decoder self di z init)), (snd (decoder self di z init)),
          None, r1, [EvDecoder z; EvWordEmbed].
        split; [|auto].
        now apply forward_conditional.
      * destruct ewi as [ewi|], eci as [eci|], dwi as [dwi|]; try discriminate.
        destruct (randn (length ewi) (latent_variable_size (params self)) (rng w))
          as [noise r1] eqn:Hn.
        destruct (dropout (word_embed self dwi) drop r1) as [di r2] eqn:Hd.
        do 3 eexists. exists r2.
        exists [EvDecoder (z_of noise (mu_of self ewi eci) (logvar_of self ewi eci));
                EvWordEmbed; EvEncoder; EvEmbedding].
        split; [|auto].
        now apply (forward_training randn dropout self drop ewi eci dwi init w
                     noise r1 di r2).
    + left. split; [reflexivity|]. split; [reflexivity|].
      now apply forward_rejected.
  - left. split; [reflexivity|]. now apply forward_allocation.
Qed.

(** X2.  The allocation check comes first: a model that fails it gets the
    allocation error whatever the inputs are, also for inputs that break
    the input contract; and only such a model gets it. *)
Theorem forward_allocation_error_iff
        self drop ewi eci dwi z init (w : World Rng) :
  forward randn dropout self drop ewi eci dwi z init w
  = (Raise AllocationError, w)
  <-> parameters_allocation_check self = false.
Proof.
  split.
  - intros Hf.
    destruct (forward_outcome self drop ewi eci dwi z init w)
      as [[Ha H] | [(Ha & Hc & H) | (Ha & Hc & out & st & kld & r & past & H & _)]];
      rewrite H in Hf; try assumption; discriminate.
  - apply forward_allocation.
Qed.

(** X3.  When [z] and the decoder word input are given, the encoder inputs
    are never looked at: the call does exactly what it does without them. *)
Theorem forward_ignores_encoder_inputs_given_z
        self drop ewi eci dwi z init (w : World Rng) :
  forward randn dropout self drop ewi eci (Some dwi) (Some z) init w
  = forward randn dropout self drop None None (Some dwi) (Some z) init w.
Proof.
  destruct (parameters_allocation_check self) eqn:Ha.
  - destruct (dropout (word_embed self dwi) drop (rng w)) as [di r1] eqn:Hd.
    now rewrite !(forward_conditional randn dropout self drop _ _ dwi z init w
                    di r1 Ha Hd).
  - now rewrite !forward_allocation.
Qed.

(** X4.  A call with [z] that returns has called the word embedding and then
    the decoder, on the caller's [z] unchanged, and nothing else: the
    encoder side is not run and [t.randn] is not drawn from. *)
Theorem forward_given_z_runs_decoder_only
        self drop ewi eci dwi z init (w w' : World Rng) r :
  forward randn dropout self drop ewi eci dwi (Some z) init w = (Ok r, w') ->
  exists decoder_word_input,
    dwi = Some decoder_word_input
    /\ log w' = EvDecoder z :: EvWordEmbed :: log w
    /\ rng w' = snd (dropout (word_embed self decoder_word_input) drop (rng w))
    /\ r = (fst (decoder self
                   (fst (dropout (word_embed self decoder_word_input) drop (rng w)))
                   z init),
            snd (decoder self
                   (fst (dropout (word_embed self decoder_word_input) drop (rng w)))
                   z init),
            None).
Proof.
  intros Hf.
  destruct (parameters_allocation_check self) eqn:Ha.
  - destruct dwi as [dwi|].
    + exists dwi.
      destruct (dropout (word_embed self dwi) drop (rng w)) as [di r1] eqn:Hd.
      rewrite (forward_conditional randn dropout self drop ewi eci dwi z init w
                 di r1 Ha Hd) in Hf.
      inversion Hf; subst. simpl. auto.
    + rewrite forward_rejected in Hf; [discriminate | assumption |].
      now destruct ewi, eci.
  - rewrite forward_allocation in Hf by assumption. discriminate.
Qed.

(** X5.  Every call of [forward] that returns has invoked the decoder
    exactly once and the optimizer not at all. *)
Theorem forward_calls_decoder_once
        self drop ewi eci dwi z init (w w' : World Rng) r :
  forward randn dropout self drop ewi eci dwi z init w = (Ok r, w') ->
  decoder_calls (log w') = S (decoder_calls (log w))
  /\ optimizer_calls (log w') = optimizer_calls (log w).
Proof.
  intros Hf.
  destruct (forward_outcome self drop ewi eci dwi z init w)
    as [[Ha H] | [(Ha & Hc & H)
                 | (Ha & Hc & out & st & kld & r' & past & H & Hd & Ho)]];
    rewrite H in Hf; try discriminate.
  inversion Hf; subst. simpl.
  unfold decoder_calls, optimizer_calls in *.
  rewrite !filter_app, !length_app, Hd, Ho. auto.
Qed.

(** ** The latent vector at the prior *)

Lemma has_size_Forall2 {A B : Type} (x : list (list A)) (y : list (list B)) b l :
  Torch.has_size x b l = true -> Torch.has_size y b l = true ->
  Forall2 (fun r1 r2 => length r1 = length r2) x y.
Proof.
  unfold Torch.has_size. rewrite !andb_true_iff, !Nat.eqb_eq, !forallb_forall.
  intros [Hxb Hxr] [Hyb Hyr]. subst b. revert y Hyb Hyr.
  induction x as [|r1 x IH]; intros [|r2 y] Hyb Hyr; simpl in *;
    try discriminate; constructor.
  - pose proof (Hxr r1 (or_introl eq_refl)) as H1.
    pose proof (Hyr r2 (or_introl eq_refl)) as H2.
    apply Nat.eqb_eq in H1, H2. congruence.
  - apply IH; auto.
Qed.

Lemma z_of_row_prior (noise mu logvar : Tensor1) :
  length noise = length mu -> length noise = length logvar ->
  Forall (fun v => v = 0) mu -> Forall (fun v => v = 0) logvar ->
  Torch.zip_with Rplus
    (Torch.zip_with Rmult noise
       (map Rtrigo_def.exp (map (Rmult 0.5) logvar))) mu
  = noise.
Proof.
  revert mu logvar.
  induction noise as [|n noise IH]; intros [|m mu] [|lv logvar] H1 H2 Hm Hl;
    simpl in *; try discriminate; [reflexivity|].
  inversion Hm; inversion Hl; subst.
  rewrite IH by (auto; lia). f_equal.
  rewrite Rmult_0_r, exp_0. lra.
Qed.

(** X9.  At the prior the latent vector is the noise itself: when [mu] and
    [logvar] are zero everywhere and have the shape of the noise,
    [z = noise * exp(0) + 0 = noise]. *)
Theorem z_of_prior_is_noise (noise mu logvar : Tensor2) (b L : nat) :
  Torch.has_size noise b L = true ->
  Torch.has_size mu b L = true ->
  Torch.has_size logvar b L = true ->
  all_zero mu -> all_zero logvar ->
  z_of noise mu logvar = noise.
Proof.
  intros Hn Hm Hl Zm Zl.
  pose proof (has_size_Forall2 _ _ b L Hn Hm) as Fm.
  pose proof (has_size_Forall2 _ _ b L Hn Hl) as Fl.
  clear Hn Hm Hl.
  unfold z_of, std_of, Torch.add, Torch.mul, Torch.exp, Torch.scale,
    Torch.pointwise2, Torch.pointwise.
  revert logvar Fl Zl Zm.
  induction Fm as [|n m noise mu Hnm Fm IH]; intros logvar Fl Zl Zm.
  - reflexivity.
  - inversion Fl as [|? lv ? logvar' Hnl Fl']; subst.
    inversion Zl; inversion Zm; subst. simpl.
    rewrite z_of_row_prior by assumption.
    f_equal. now apply IH.
Qed.

(** ** Reshaping *)

Lemma rows_of_concat {A : Type} (V : nat) (rows : list (list A)) :
  (0 < V)%nat ->
  Forall (fun row => length row = V) rows ->
  forall fuel, (length rows <= fuel)%nat ->
  Torch.rows_of fuel V (concat rows) = rows.
Proof.
  intros HV Hrows. induction Hrows as [|row rows Hrow Hrows IH];
    intros fuel Hfuel.
  - destruct fuel; reflexivity.
  - destruct fuel as [|fuel]; simpl in Hfuel; [lia|].
    cbn [concat Torch.rows_of].
    destruct (row ++ concat rows) as [|a rest] eqn:Hflat.
    + apply (f_equal (@length A)) in Hflat. rewrite length_app in Hflat.
      simpl in Hflat. lia.
    + rewrite <- Hflat.
      rewrite firstn_app, skipn_app, Hrow, Nat.sub_diag.
      rewrite firstn_all2, skipn_all2 by lia. simpl.
      rewrite app_nil_r. f_equal. apply IH. lia.
Qed.

Lemma length_concat_rows {A : Type} (V : nat) (rows : list (list A)) :
  Forall (fun row => length row = V) rows ->
  length (concat rows) = (V * length rows)%nat.
Proof.
  induction 1 as [|row rows Hrow Hrows IH]; simpl; [lia|].
  rewrite length_app, IH, Hrow. lia.
Qed.

Lemma view_concat {A : Type} (x : list (list (list A))) (V : nat) :
  (0 < V)%nat ->
  Forall (Forall (fun row => length row = V)) x ->
  Torch.view x V = Some (concat x).
Proof.
  intros HV Hx.
  assert (Forall (fun row => length row = V) (concat x)) as Hrows.
  { induction Hx as [|m x Hm Hx IH]; simpl; [constructor|].
    apply Forall_app. split; assumption. }
  unfold Torch.view.
  rewrite (length_concat_rows V) by assumption.
  replace (Nat.eqb V 0) with false by (symmetry; apply Nat.eqb_neq; lia).
  rewrite Nat.mul_comm, Nat.Div0.mod_mul. simpl.
  f_equal. apply rows_of_concat; try assumption. nia.
Qed.

(** X10.  [x.view(-1, V)] of a tensor whose innermost rows all have [V > 0]
    entries does not raise and merges the two outer dimensions: the rows of
    the result are the rows of [x], batch after batch. *)
Theorem view_merges_outer_dimensions {A : Type}
        (x : list (list (list A))) (V : nat) :
  (0 < V)%nat ->
  Forall (Forall (fun row => length row = V)) x ->
  Torch.view x V = Some (concat x).
Proof. apply view_concat. Qed.

(** ** The training step *)

Lemma train_forward_raises
      self (batch_loader : BatchLoader Rng) i batch_size use_cuda drop
      (w : World Rng) ewi eci dwi target r1 e w1 :
  next_batch batch_loader batch_size "train" (rng w)
  = ((ewi, eci, dwi, target), r1) ->
  forward randn dropout self drop (Some ewi) (Some eci) (Some dwi) None None
          {| rng := r1; log := EvNextBatch :: log w |}
  = (Raise e, w1) ->
  train randn dropout kld_coef self batch_loader i batch_size use_cuda drop w
  = (Raise e, w1).
Proof.
  intros Hb Hf. unfold train. run_monad. rewrite Hb. simpl.
  rewrite Hf. reflexivity.
Qed.

Lemma train_after_forward
      self (batch_loader : BatchLoader Rng) i batch_size use_cuda drop
      (w : World Rng) ewi eci dwi target r1 logits final_state kld w1 :
  next_batch batch_loader batch_size "train" (rng w)
  = ((ewi, eci, dwi, target), r1) ->
  forward randn dropout self drop (Some ewi) (Some eci) (Some dwi) None None
          {| rng := r1; log := EvNextBatch :: log w |}
  = (Ok (logits, final_state, kld), w1) ->
  exists e,
    train randn dropout kld_coef self batch_loader i batch_size use_cuda drop w
    = (Raise e, w1).
Proof.
  intros Hb Hf. unfold train. run_monad. rewrite Hb. simpl.
  rewrite Hf. simpl.
  destruct (Torch.view logits _); simpl; [|eexists; reflexivity].
  destruct (Torch.view target _) as [target2|]; simpl; [|eexists; reflexivity].
  unfold of_refusal, Torch.binary_cross_entropy.
  destruct (Torch.same_size _ target2); eexists; reflexivity.
Qed.

Lemma forward_training_outcome self drop ewi eci dwi (w : World Rng) :
  parameters_allocation_check self = true ->
  exists logits final_state kld r past,
    forward randn dropout self drop (Some ewi) (Some eci) (Some dwi) None None w
    = (Ok (logits, final_state, kld), {| rng := r; log := past ++ log w |})
    /\ optimizer_calls past = 0%nat.
Proof.
  intros Ha.
  destruct (randn (length ewi) (latent_variable_size (params self)) (rng w))
    as [noise r1] eqn:Hn.
  destruct (dropout (word_embed self dwi) drop r1) as [di r2] eqn:Hd.
  do 3 eexists. exists r2.
  exists [EvDecoder (z_of noise (mu_of self ewi eci) (logvar_of self ewi eci));
          EvWordEmbed; EvEncoder; EvEmbedding].
  split; [|reflexivity].
  now apply (forward_training randn dropout self drop ewi eci dwi None w
               noise r1 di r2).
Qed.

(** X12.  The training step never reaches the optimizer: whatever the
    model, the loader and the arguments, it ends by raising, and
    [zero_grad], [backward] and [step] have not been called. *)
Theorem train_never_reaches_optimizer
        self (batch_loader : BatchLoader Rng) i batch_size use_cuda drop
        (w : World Rng) :
  exists e w',
    train randn dropout kld_coef self batch_loader i batch_size use_cuda drop w
    = (Raise e, w')
    /\ optimizer_calls (log w') = optimizer_calls (log w).
Proof.
  destruct (next_batch batch_loader batch_size "train" (rng w))
    as [[[[ewi eci] dwi] target] r1] eqn:Hb.
  destruct (parameters_allocation_check self) eqn:Ha.
  - destruct (forward_training_outcome self drop ewi eci dwi
                {| rng := r1; log := EvNextBatch :: log w |} Ha)
      as (logits & st & kld & r & past & Hf & Ho).
    destruct (train_after_forward _ _ i batch_size use_cuda _ _ _ _ _ _ _ _ _ _ _
                Hb Hf) as [e He].
    exists e. eexists. split; [exact He|]. simpl.
    unfold optimizer_calls in *. rewrite filter_app, length_app, Ho.
    reflexivity.
  - exists AllocationError. eexists. split.
    + apply (train_forward_raises _ _ _ _ _ _ _ _ _ _ _ _ _ _ Hb).
      now apply forward_allocation.
    + reflexivity.
Qed.

(** X13.  On a model that fails the allocation check the training step
    raises the allocation error only after it has taken a batch from the
    loader: the batch is consumed, nothing else is called. *)
Theorem train_allocation_failure_consumes_batch
        self (batch_loader : BatchLoader Rng) i batch_size use_cuda drop
        (w : World Rng) :
  parameters_allocation_check self = false ->
  train randn dropout kld_coef self batch_loader i batch_size use_cuda drop w
  = (Raise AllocationError,
     {| rng := snd (next_batch batch_loader batch_size "train" (rng w));
        log := EvNextBatch :: log w |}).
Proof.
  intros Ha.
  destruct (next_batch batch_loader batch_size "train" (rng w))
    as [[[[ewi eci] dwi] target] r1] eqn:Hb.
  apply (train_forward_raises _ _ _ _ _ _ _ _ _ _ _ _ _ _ Hb).
  now apply forward_allocation.
Qed.

(** ** The sampling loop *)

Lemma string_append_assoc (a b c : string) :
  ((a ++ b) ++ c)%string = (a ++ (b ++ c))%string.
Proof. induction a as [|ch a IH]; simpl; [reflexivity | now rewrite IH]. Qed.

Lemma append_words_text (result : string) (words : list string) :
  append_words result words = (result ++ words_text words)%string.
Proof.
  revert result. induction words as [|word words IH]; intros result; simpl.
  - induction result as [|ch result IHr]; simpl; [reflexivity | now rewrite <- IHr].
  - rewrite IH, !string_append_assoc. reflexivity.
Qed.

Lemma decoder_calls_app (l1 l2 : list event) :
  decoder_calls (l1 ++ l2) = (decoder_calls l1 + decoder_calls l2)%nat.
Proof. unfold decoder_calls. now rewrite filter_app, length_app. Qed.

Lemma optimizer_calls_app (l1 l2 : list event) :
  optimizer_calls (l1 ++ l2) = (optimizer_calls l1 + optimizer_calls l2)%nat.
Proof. unfold optimizer_calls. now rewrite filter_app, length_app. Qed.

(** One statement for every way the loop can end, by induction on the
    number of iterations left. *)
Lemma sample_loop_outcome self (batch_loader : BatchLoader Rng) seed use_cuda :
  forall n dwi result init (w : World Rng),
  exists res r new,
    sample_loop randn dropout self batch_loader seed use_cuda n dwi result init w
    = (res, {| rng := r; log := new ++ log w |})
    /\ Forall (sampling_event seed) new
    /\ (decoder_calls new <= n)%nat
    /\ match res with
       | Ok text =>
           exists words,
             text = append_words result words
             /\ Forall (fun word => word <> end_token batch_loader
                                    /\ word_to_idx batch_loader word <> None)
                       words
             /\ ((decoder_calls new = length words /\ length words = n)
                 \/ decoder_calls new = S (length words))
       | Raise e =>
           e = AllocationError \/ e = RuntimeError
           \/ e = IndexError \/ e = KeyError
       end.
Proof.
  induction n as [|n IH]; intros dwi result init w.
  - exists (Ok result), (rng w), []. destruct w as [r l].
    unfold decoder_calls. simpl.
    split; [reflexivity|]. split; [constructor|]. split; [lia|].
    exists []. simpl. auto.
  - cbn [sample_loop]. unfold bind at 1.
    destruct (parameters_allocation_check self) eqn:Ha.
    2:{ rewrite forward_allocation by assumption.
        exists (Raise AllocationError), (rng w), []. destruct w as [r l].
        unfold decoder_calls. simpl.
        split; [reflexivity|]. split; [constructor|]. split; [lia|]. auto. }
    destruct (dropout (word_embed self dwi) 0 (rng w)) as [di r1] eqn:Hd.
    rewrite (forward_conditional randn dropout self 0 None None dwi seed init w
               di r1 Ha Hd).
    assert (Forall (sampling_event seed) [EvDecoder seed; EvWordEmbed]) as F2.
    { repeat (apply Forall_cons; [unfold sampling_event; auto 6|]).
      apply Forall_nil. }
    assert (Forall (sampling_event seed)
                   [EvSampleWord; EvDecoder seed; EvWordEmbed]) as F3.
    { repeat (apply Forall_cons; [unfold sampling_event; auto 6|]).
      apply Forall_nil. }
    run_monad.
    destruct (Torch.view (fst (decoder self di seed init))
                         (word_vocab_size (params self))) as [logits2|]; simpl.
    2:{ exists (Raise RuntimeError), r1, [EvDecoder seed; EvWordEmbed].
        split; [reflexivity|]. split; [exact F2|].
        split; [unfold decoder_calls; simpl; lia | auto]. }
    destruct (last (map Some (Torch.softmax logits2)) None) as [d|]; simpl.
    2:{ exists (Raise IndexError), r1, [EvDecoder seed; EvWordEmbed].
        split; [reflexivity|]. split; [exact F2|].
        split; [unfold decoder_calls; simpl; lia | auto]. }
    destruct (sample_word_from_distribution batch_loader d r1)
      as [word r2]; simpl.
    destruct (String.eqb word (end_token batch_loader)) eqn:Hend; simpl.
    { exists (Ok result), r2, [EvSampleWord; EvDecoder seed; EvWordEmbed].
      split; [reflexivity|]. split; [exact F3|].
      split; [unfold decoder_calls; simpl; lia|].
      exists []. simpl. split; [reflexivity|]. split; [constructor|].
      right. reflexivity. }
    apply String.eqb_neq in Hend.
    destruct (word_to_idx batch_loader word) as [idx|] eqn:Hw; simpl.
    2:{ exists (Raise KeyError), r2, [EvSampleWord; EvDecoder seed; EvWordEmbed].
        split; [reflexivity|]. split; [exact F3|].
        split; [unfold decoder_calls; simpl; lia | auto]. }
    destruct (IH (if use_cuda then [[idx]] else [[idx]])
                 (result ++ " " ++ word)%string
                 (Some (snd (decoder self di seed init)))
                 {| rng := r2;
                    log := EvSampleWord :: EvDecoder seed :: EvWordEmbed
                           :: log w |})
      as (res & r & new & Hloop & Hnew & Hcalls & Hres).
    exists res, r, (new ++ [EvSampleWord; EvDecoder seed; EvWordEmbed]).
    split.
    { rewrite <- app_assoc. exact Hloop. }
    split; [apply Forall_app; auto|].
    rewrite decoder_calls_app.
    change (decoder_calls [EvSampleWord; EvDecoder seed; EvWordEmbed])
      with 1%nat.
    split; [lia|].
    destruct res as [text|e]; [|exact Hres].
    destruct Hres as (words & Htext & Hwords & Hcount).
    exists (word :: words). split; [exact Htext|].
    split; [constructor; [split; congruence | assumption]|].
    simpl. destruct Hcount as [[H1 H2] | H1]; [left | right]; lia.
Qed.

Lemma sample_outcome self (batch_loader : BatchLoader Rng) seq_len seed use_cuda
      (w : World Rng) :
  exists res r new,
    sample randn dropout self batch_loader seq_len seed use_cuda w
    = (res, {| rng := r; log := new ++ EvGoInput :: log w |})
    /\ Forall (sampling_event seed) new
    /\ (decoder_calls new <= Z.to_nat seq_len)%nat
    /\ match res with
       | Ok text =>
           exists words,
             text = words_text words
             /\ Forall (fun word => word <> end_token batch_loader
                                    /\ word_to_idx batch_loader word <> None)
                       words
             /\ ((decoder_calls new = length words
                  /\ length words = Z.to_nat seq_len)
                 \/ decoder_calls new = S (length words))
       | Raise e =>
           e = AllocationError \/ e = RuntimeError
           \/ e = IndexError \/ e = KeyError
       end.
Proof.
  unfold sample. run_monad.
  destruct (go_input batch_loader 1) as [dwi0 dci0].
  replace (if use_cuda then seed else seed) with seed by now destruct use_cuda.
  destruct (sample_loop_outcome self batch_loader seed use_cuda
              (Z.to_nat seq_len) (if use_cuda then dwi0 else dwi0)
              EmptyString None {| rng := rng w; log := EvGoInput :: log w |})
    as (res & r & new & Hloop & Hnew & Hcalls & Hres).
  exists res, r, new. split; [exact Hloop|]. split; [exact Hnew|].
  split; [exact Hcalls|].
  destruct res as [text|e]; [|exact Hres].
  destruct Hres as (words & Htext & Hrest).
  exists words. split; [|exact Hrest].
  now rewrite Htext, append_words_text.
Qed.

(** X15.  However [sample] ends, by returning or by raising, it has called
    the decoder at most [seq_len] times, each time on the caller's seed, and
    beside that only [go_input], the word embedding and the word sampler:
    the encoder and the optimizer are never called. *)
Theorem sample_calls_bounded
        self (batch_loader : BatchLoader Rng) seq_len seed use_cuda
        (w : World Rng) :
  exists new,
    log (snd (sample randn dropout self batch_loader seq_len seed use_cuda w))
    = new ++ log w
    /\ Forall (sampling_event seed) new
    /\ (decoder_calls new <= Z.to_nat seq_len)%nat
    /\ optimizer_calls new = 0%nat.
Proof.
  destruct (sample_outcome self batch_loader seq_len seed use_cuda w)
    as (res & r & new & Hs & Hnew & Hcalls & _).
  exists (new ++ [EvGoInput]). rewrite Hs. simpl.
  split; [now rewrite <- app_assoc|].
  assert (Forall (sampling_event seed) (new ++ [EvGoInput])) as Hall.
  { apply Forall_app. split; [exact Hnew|].
    apply Forall_cons; [unfold sampling_event; auto | apply Forall_nil]. }
  split; [exact Hall|]. split.
  - rewrite decoder_calls_app. change (decoder_calls [EvGoInput]) with 0%nat. lia.
  - clear - Hall. induction Hall as [|e l He Hl IH]; [reflexivity|].
    unfold optimizer_calls in *. simpl.
    destruct He as [-> | [-> | [-> | ->]]]; simpl; exact IH.
Qed.


(** X17.  [sample] raises only the allocation error of [forward], the
    runtime error of [view], the index error of an empty prediction and the
    key error of an unknown word: it never fails the input contract of
    [forward]. *)
Theorem sample_raises_only
        self (batch_loader : BatchLoader Rng) seq_len seed use_cuda
        (w w' : World Rng) e :
  sample randn dropout self batch_loader seq_len seed use_cuda w
  = (Raise e, w') ->
  e = AllocationError \/ e = RuntimeError \/ e = IndexError \/ e = KeyError.
Proof.
  intros Hr.
  destruct (sample_outcome self batch_loader seq_len seed use_cuda w)
    as (res & r & new & Hs & _ & _ & Hres).
  rewrite Hs in Hr. inversion Hr; subst. exact Hres.
Qed.

(** X18.  A word that the sampler draws and the index does not know makes
    [sample] raise the key error: when the first decoder step succeeds and
    the word drawn is neither the end token nor a key of [word_to_idx], the
    call fails after that one decoder step and no text is returned. *)
Theorem sample_unknown_word_raises
        self (batch_loader : BatchLoader Rng) seq_len seed use_cuda
        (w : World Rng) dwi0 dci0 logits final_state kld w1 logits2
        distribution word r2 :
  (1 <= seq_len)%Z ->
  go_input batch_loader 1 = (dwi0, dci0) ->
  forward randn dropout self 0 None None (Some dwi0) (Some seed) None
          {| rng := rng w; log := EvGoInput :: log w |}
  = (Ok (logits, final_state, kld), w1) ->
  Torch.view logits (word_vocab_size (params self)) = Some logits2 ->
  last (map Some (Torch.softmax logits2)) None = Some distribution ->
  sample_word_from_distribution batch_loader distribution (rng w1)
  = (word, r2) ->
  word <> end_token batch_loader ->
  word_to_idx batch_loader word = None ->
  sample randn dropout self batch_loader seq_len seed use_cuda w
  = (Raise KeyError, {| rng := r2; log := EvSampleWord :: log w1 |}).
Proof.
  intros Hlen Hgo Hf Hv Hlast Hdraw Hne Hidx.
  unfold sample. run_monad. rewrite Hgo.
  destruct (Z.to_nat seq_len) as [|n] eqn:Hn; [lia|].
  replace (if use_cuda then seed else seed) with seed by now destruct use_cuda.
  replace (if use_cuda then dwi0 else dwi0) with dwi0 by now destruct use_cuda.
  cbn [sample_loop]. run_monad. rewrite Hf. simpl. rewrite Hv. simpl.
  rewrite Hlast. simpl. rewrite Hdraw. simpl.
  apply String.eqb_neq in Hne. rewrite Hne, Hidx. reflexivity.
Qed.


(** X20.  With a budget of at least one step, [sample] on a model that
    fails the allocation check raises the allocation error at its first
    step: [go_input] has been called, the decoder has not. *)
Theorem sample_allocation_failure
        self (batch_loader : BatchLoader Rng) seq_len seed use_cuda
        (w : World Rng) :
  (1 <= seq_len)%Z ->
  parameters_allocation_check self = false ->
  sample randn dropout self batch_loader seq_len seed use_cuda w
  = (Raise AllocationError, {| rng := rng w; log := EvGoInput :: log w |}).
Proof.
  intros Hlen Ha. unfold sample. run_monad.
  destruct (go_input batch_loader 1) as [dwi0 dci0].
  destruct (Z.to_nat seq_len) as [|n] eqn:Hn; [lia|].
  cbn [sample_loop]. unfold bind at 1.
  now rewrite forward_allocation.
Qed.

(** ** [learnable_paramters] *)

(** X21.  [learnable_paramters] hands on exactly the parameters that
    require a gradient: a frozen parameter, such as the word embedding, is
    never among them, one that requires a gradient is never dropped, and the
    parameters of two sub-modules are filtered side by side, in order. *)
Theorem learnable_paramters_keeps_trainable (ps qs : list TorchParameter) :
  (forall p, In p (learnable_paramters ps)
             <-> In p ps /\ requires_grad p = true)
  /\ learnable_paramters (ps ++ qs)
     = learnable_paramters ps ++ learnable_paramters qs
  /\ learnable_paramters (learnable_paramters ps) = learnable_paramters ps.
Proof.
  unfold learnable_paramters. split; [|split].
  - intros p. apply filter_In.
  - apply filter_app.
  - induction ps as [|p ps IH]; simpl; [reflexivity|].
    destruct (requires_grad p) eqn:Hp; simpl; [rewrite Hp, IH|]; auto.
Qed.

End MoreProofs.

(** * Closed instances *)

(** C1, the claim as written fails: with encoder inputs, decoder input and
    [z] all present, which is neither of the two patterns of the
    specification, [forward] raises nothing and runs the decoder on [z]. *)
Lemma forward_z_with_encoder_inputs_accepted :
  spec_contract (Some [[1%Z]]) (Some [[[1%Z]]]) (Some [[1%Z]]) (Some [[0]])
  = false
  /\ forward Mock.randn Mock.dropout Mock.model 0
             (Some [[1%Z]]) (Some [[[1%Z]]]) (Some [[1%Z]]) (Some [[0]]) None
             Mock.world
     = (Ok ([[[0; 0]]], [[[0]]], None),
        {| rng := tt; log := [EvDecoder [[0]]; EvWordEmbed] |}).
Proof. split; reflexivity. Qed.

Lemma forward_input_contract_error_witness :
  forward Mock.randn Mock.dropout Mock.model 0
          (Some [[1%Z]]) None (Some [[1%Z]]) None None Mock.world
  = (Raise InputContractError, Mock.world).
Proof.
  apply (forward_input_contract_error Mock.randn Mock.dropout Mock.model 0
           (Some [[1%Z]]) None (Some [[1%Z]]) None None Mock.world).
  - reflexivity.
  - left. split; [reflexivity | right; left; reflexivity].
Defined.

Lemma forward_kld_defined_iff_z_absent_witness :
  exists out final_state kld w',
    forward Mock.randn Mock.dropout Mock.model 0
            (Some [[1%Z]]) (Some [[[1%Z]]]) (Some [[1%Z]]) None None Mock.world
    = (Ok (out, final_state, kld), w')
    /\ (@None Tensor2 = None -> exists k, kld = Some k)
    /\ (@None Tensor2 <> None -> kld = None).
Proof.
  apply (forward_kld_defined_iff_z_absent Mock.randn Mock.dropout Mock.model 0
           (Some [[1%Z]]) (Some [[[1%Z]]]) (Some [[1%Z]]) None None Mock.world);
    reflexivity.
Defined.

Lemma forward_kld_sum_over_batch_witness :
  exists out final_state w',
    forward Cases.randn22 Mock.dropout Cases.two_by_two 0
            (Some [[1%Z; 2%Z]; [3%Z; 4%Z]])
            (Some [[[1%Z]; [2%Z]]; [[3%Z]; [4%Z]]])
            (Some [[5%Z; 6%Z]; [7%Z; 8%Z]]) None None Mock.world
    = (Ok (out, final_state,
           Some (big_sum 2 (fun i =>
                   -0.5 * big_sum 2 (fun j =>
                            Torch.entry [[3; 4]; [1; 2]] i j
                            - Torch.entry [[1; 2]; [3; 4]] i j ^ 2
                            - exp (Torch.entry [[3; 4]; [1; 2]] i j)
                            + 1)))),
       w').
Proof.
  apply (forward_kld_sum_over_batch Cases.randn22 Mock.dropout
           Cases.two_by_two 0
           [[1%Z; 2%Z]; [3%Z; 4%Z]] [[[1%Z]; [2%Z]]; [[3%Z]; [4%Z]]]
           [[5%Z; 6%Z]; [7%Z; 8%Z]] None Mock.world 2 2);
    reflexivity.
Defined.

Lemma forward_latent_vector_witness :
  exists out final_state kld w' z past,
    forward Cases.randn22 Mock.dropout Cases.two_by_two 0
            (Some [[1%Z; 2%Z]; [3%Z; 4%Z]])
            (Some [[[1%Z]; [2%Z]]; [[3%Z]; [4%Z]]])
            (Some [[5%Z; 6%Z]; [7%Z; 8%Z]]) None None Mock.world
    = (Ok (out, final_state, kld), w')
    /\ log w' = EvDecoder z :: past
    /\ decoder_calls past = decoder_calls (log Mock.world)
    /\ Torch.has_size z 2 2 = true
    /\ forall i j, (i < 2)%nat -> (j < 2)%nat ->
         Torch.entry z i j
         = Torch.entry [[2; 3]; [4; 5]] i j
           * exp (0.5 * Torch.entry [[3; 4]; [1; 2]] i j)
           + Torch.entry [[1; 2]; [3; 4]] i j.
Proof.
  apply (forward_latent_vector Cases.randn22 Mock.dropout Cases.two_by_two 0
           [[1%Z; 2%Z]; [3%Z; 4%Z]] [[[1%Z]; [2%Z]]; [[3%Z]; [4%Z]]]
           [[5%Z; 6%Z]; [7%Z; 8%Z]] None Mock.world
           [[2; 3]; [4; 5]] tt 2 2);
    reflexivity.
Defined.





Lemma train_raises_at_cross_entropy_witness :
  train Cases.randn22 Mock.dropout Mock.kld_coef Cases.two_by_two
        Cases.loader22 0 2 false 0 Mock.world
  = (Raise DtypeError,
     {| rng := tt;
        log := [EvDecoder (z_of [[2; 3]; [4; 5]] [[1; 2]; [3; 4]]
                                [[3; 4]; [1; 2]]);
                EvWordEmbed; EvEncoder; EvEmbedding; EvNextBatch] |}).
Proof.
  apply (train_raises_at_cross_entropy Cases.randn22 Mock.dropout
           Mock.kld_coef Cases.two_by_two Cases.loader22 0 2 false 0
           Mock.world
           [[1%Z; 2%Z]; [3%Z; 4%Z]] [[[1%Z]; [2%Z]]; [[3%Z]; [4%Z]]]
           [[5%Z; 6%Z]; [7%Z; 8%Z]]
           [[[0%Z; 1%Z]; [1%Z; 0%Z]]; [[1%Z; 0%Z]; [0%Z; 1%Z]]] tt
           [[[1; 2]; [3; 4]]; [[5; 6]; [7; 8]]]
           [z_of [[2; 3]; [4; 5]] [[1; 2]; [3; 4]] [[3; 4]; [1; 2]]]
           (Some (kld_of [[1; 2]; [3; 4]] [[3; 4]; [1; 2]]))
           {| rng := tt;
              log := [EvDecoder (z_of [[2; 3]; [4; 5]] [[1; 2]; [3; 4]]
                                      [[3; 4]; [1; 2]]);
                      EvWordEmbed; EvEncoder; EvEmbedding; EvNextBatch] |}
           [[1; 2]; [3; 4]; [5; 6]; [7; 8]]
           [[0%Z; 1%Z]; [1%Z; 0%Z]; [1%Z; 0%Z]; [0%Z; 1%Z]]);
    reflexivity.
Defined.

Lemma sample_stops_at_end_token_witness :
  sample Mock.randn Mock.dropout Mock.model (Mock.loader "</s>") 1 [[0]] false
         Mock.world
  = (Ok EmptyString,
     {| rng := tt;
        log := [EvSampleWord; EvDecoder [[0]]; EvWordEmbed; EvGoInput] |})
  /\ decoder_calls [EvSampleWord; EvDecoder [[0]]; EvWordEmbed; EvGoInput]
     = 1%nat.
Proof.
  apply (sample_stops_at_end_token Mock.randn Mock.dropout Mock.model
           (Mock.loader "</s>") 1 [[0]] false Mock.world
           [[0%Z]] [[[0%Z]]] [[[0; 0]]] [[[0]]] None
           {| rng := tt; log := [EvDecoder [[0]]; EvWordEmbed; EvGoInput] |}
           [[0; 0]] (Torch.softmax_row [0; 0]) tt);
    solve [lia | reflexivity].
Defined.


Lemma sample_nonpositive_length_witness :
  sample Mock.randn Mock.dropout Mock.model (Mock.loader "a") 0 [[0]] false
         Mock.world
  = (Ok EmptyString, {| rng := tt; log := [EvGoInput] |})
  /\ decoder_calls [EvGoInput] = 0%nat.
Proof.
  apply (sample_nonpositive_length Mock.randn Mock.dropout Mock.model
           (Mock.loader "a") 0 [[0]] false Mock.world).
  lia.
Defined.

(** ** Instances of the further properties *)

Lemma forward_given_z_runs_decoder_only_witness :
  exists decoder_word_input,
    Some [[1%Z]] = Some decoder_word_input
    /\ [EvDecoder [[0]]; EvWordEmbed] = EvDecoder [[0]] :: EvWordEmbed :: []
    /\ tt = snd (Mock.dropout (word_embed Mock.model decoder_word_input) 0 tt)
    /\ ([[[0; 0]]], [[[0]]], @None R)
       = (fst (decoder Mock.model
                 (fst (Mock.dropout (word_embed Mock.model decoder_word_input)
                                    0 tt))
                 [[0]] None),
          snd (decoder Mock.model
                 (fst (Mock.dropout (word_embed Mock.model decoder_word_input)
                                    0 tt))
                 [[0]] None),
          None).
Proof.
  apply (forward_given_z_runs_decoder_only Mock.randn Mock.dropout Mock.model 0
           None None (Some [[1%Z]]) [[0]] None Mock.world
           {| rng := tt; log := [EvDecoder [[0]]; EvWordEmbed] |}
           ([[[0; 0]]], [[[0]]], None)).
  reflexivity.
Defined.

Lemma forward_calls_decoder_once_witness :
  decoder_calls [EvDecoder [[0]]; EvWordEmbed] = 1%nat
  /\ optimizer_calls [EvDecoder [[0]]; EvWordEmbed] = 0%nat.
Proof.
  apply (forward_calls_decoder_once Mock.randn Mock.dropout Mock.model 0
           None None (Some [[1%Z]]) (Some [[0]]) None Mock.world
           {| rng := tt; log := [EvDecoder [[0]]; EvWordEmbed] |}
           ([[[0; 0]]], [[[0]]], None)).
  reflexivity.
Defined.

Lemma z_of_prior_is_noise_witness :
  z_of [[1; 2]] [[0; 0]] [[0; 0]] = [[1; 2]].
Proof.
  apply (z_of_prior_is_noise [[1; 2]] [[0; 0]] [[0; 0]] 1 2);
    try reflexivity; repeat constructor.
Defined.

Lemma view_merges_outer_dimensions_witness :
  Torch.view [[[1%Z; 2%Z]; [3%Z; 4%Z]]; [[5%Z; 6%Z]]] 2
  = Some [[1%Z; 2%Z]; [3%Z; 4%Z]; [5%Z; 6%Z]].
Proof.
  apply (view_merges_outer_dimensions
           [[[1%Z; 2%Z]; [3%Z; 4%Z]]; [[5%Z; 6%Z]]] 2).
  - lia.
  - repeat constructor.
Defined.

Lemma train_allocation_failure_consumes_batch_witness :
  train Mock.randn Mock.dropout Mock.kld_coef Cases.unallocated
        (Mock.loader "a") 0 1 false 0 Mock.world
  = (Raise AllocationError, {| rng := tt; log := [EvNextBatch] |}).
Proof.
  apply (train_allocation_failure_consumes_batch Mock.randn Mock.dropout
           Mock.kld_coef Cases.unallocated (Mock.loader "a") 0 1 false 0
           Mock.world).
  reflexivity.
Defined.


Lemma sample_raises_only_witness :
  KeyError = AllocationError \/ KeyError = RuntimeError
  \/ KeyError = IndexError \/ KeyError = KeyError.
Proof.
  apply (sample_raises_only Mock.randn Mock.dropout Mock.model
           Cases.unknown_word 3 [[0]] false Mock.world
           {| rng := tt;
              log := [EvSampleWord; EvDecoder [[0]]; EvWordEmbed; EvGoInput] |}
           KeyError).
  reflexivity.
Defined.

Lemma sample_unknown_word_raises_witness :
  sample Mock.randn Mock.dropout Mock.model Cases.unknown_word 3 [[0]] false
         Mock.world
  = (Raise KeyError,
     {| rng := tt;
        log := [EvSampleWord; EvDecoder [[0]]; EvWordEmbed; EvGoInput] |}).
Proof.
  apply (sample_unknown_word_raises Mock.randn Mock.dropout Mock.model
           Cases.unknown_word 3 [[0]] false Mock.world
           [[0%Z]] [[[0%Z]]] [[[0; 0]]] [[[0]]] None
           {| rng := tt; log := [EvDecoder [[0]]; EvWordEmbed; EvGoInput] |}
           [[0; 0]] (Torch.softmax_row [0; 0]) "zzz"%string tt);
    solve [lia | reflexivity | discriminate].
Defined.


Lemma sample_allocation_failure_witness :
  sample Mock.randn Mock.dropout Cases.unallocated (Mock.loader "a") 1 [[0]]
         false Mock.world
  = (Raise AllocationError, {| rng := tt; log := [EvGoInput] |}).
Proof.
  apply (sample_allocation_failure Mock.randn Mock.dropout Cases.unallocated
           (Mock.loader "a") 1 [[0]] false Mock.world).
  - lia.
  - reflexivity.
Defined.
